(** * ChatNexus: the extraction / question pipeline and its session state

  A shallow embedding of [python.py]: the two functions
  [extract_website_content] and [generate_response], the two callbacks
  [clear_chat] and [reset_analysis], the part of the page script that
  mutates [st.session_state], the conditions under which the page draws
  its widgets and figures, and the block that sets the session up.  The
  article library, the completion service and the clock are the
  environment of a script run. *)

From Stdlib Require Import ZArith Lia String Ascii List.
From stdpp Require Import base strings list gmap.

Local Open Scope Z_scope.

(** ** Python values used by the script *)
Module Py.

(** An expression either evaluates or raises; [Raise] carries the text of
    the exception, which the script only ever logs. *)
Inductive Result (A : Type) : Type :=
| Ok (a : A)
| Raise (e : string).
Arguments Ok {A} a.
Arguments Raise {A} e.

#[global] Instance result_ret : MRet Result := fun _ a => Ok a.
#[global] Instance result_bind : MBind Result := fun _ _ f m =>
  match m with
  | Ok a => f a
  | Raise e => Raise e
  end.

(** [raise_if b e]: the statement [if b: raise e]. *)
Definition raise_if (b : bool) (e : string) : Result unit :=
  if b then Raise e else Ok tt.

(** A Python [str] is a sequence of characters; one element of the Rocq
    string stands for one character. *)
Definition len (s : string) : Z := Z.of_nat (String.length s).

(** [bool(s)] for a string: only the empty string is falsy. *)
Definition truthy (s : string) : bool :=
  match s with
  | EmptyString => false
  | String _ _ => true
  end.

(** [s[:n]] for a non-negative [n]. *)
Fixpoint slice_to (n : nat) (s : string) : string :=
  match n, s with
  | O, _ => EmptyString
  | S _, EmptyString => EmptyString
  | S n', String c s' => String c (slice_to n' s')
  end.

(** The line break of a triple-quoted literal. *)
Definition nl : string := String (ascii_of_nat 10) EmptyString.

(** [c * n], used to write long inputs down. *)
Fixpoint replicate_char (n : nat) (c : ascii) : string :=
  match n with
  | O => EmptyString
  | S n' => String c (replicate_char n' c)
  end.

End Py.
Import Py.

(** ** Data model *)

(** The dictionary built by [extract_website_content]. *)
Record Content : Type := mkContent {
  c_text : string;
  c_title : string;
  c_publish_date : option string;
  c_top_image : string;
  c_length : Z;
  c_timestamp : string
}.

(** What [newspaper.Article] exposes after [download()] and [parse()]. *)
Record Article : Type := mkArticle {
  a_text : string;
  a_title : string;
  a_publish_date : option string;
  a_top_image : string
}.

(** The object returned by [model.generate_content]; reading its [.text]
  property may itself raise (a blocked or malformed candidate). *)
Record Response : Type := mkResponse {
  r_text : Result string
}.

(** The environment of one script run: the outside world as the run sees
    it.  Each reading of the clock has its own field, since every call site
    is executed at most once per run. *)
Record Env : Type := mkEnv {
  (** [Article(url)], [download()], [parse()] *)
  fetch_article : string -> Result Article;
  (** [model.generate_content(prompt)] *)
  generate_content : string -> Result Response;
  (** [datetime.now().strftime(...)] inside [extract_website_content] *)
  now_extract : string;
  (** [datetime.now().strftime(...)] after a successful analysis *)
  now_analysis : string;
  (** [datetime.now().strftime(...)] when a question is received *)
  now_question : string
}.

Inductive Role : Type := user | assistant.

#[global] Instance Role_eq_dec : EqDecision Role.
Proof. solve_decision. Defined.

Record Message : Type := mkMessage {
  role : Role;
  content : string
}.

(** ** ContentExtractor *)
Module Extractor.

(** The body of the [try] block of [extract_website_content]. *)
Definition extract_try (env : Env) (url : string) : Result Content :=
  article ← fetch_article env url;
  let content := {|
    c_text := a_text article;
    c_title := a_title article;
    c_publish_date := a_publish_date article;
    c_top_image := a_top_image article;
    c_length := len (a_text article);
    c_timestamp := now_extract env
  |} in
  raise_if (negb (truthy (c_text content)))
           "No content extracted from the website";;
  mret content.

(** [except Exception as e: logger.error(...); return None] *)
Definition extract_website_content (env : Env) (url : string)
  : option Content :=
  match extract_try env url with
  | Ok content => Some content
  | Raise _ => None
  end.

End Extractor.
Import Extractor.

(** ** ResponseGenerator *)
Module Generator.

Definition max_context_length : nat := 5000.

Definition fallback : string :=
  "I apologize, but I encountered an error while processing your request. Please try again.".

(** [website_text[:max_context_length] if len(website_text) >
    max_context_length else website_text] *)
Definition truncated_text (website_text : string) : string :=
  if Z.ltb (Z.of_nat max_context_length) (len website_text)
  then slice_to max_context_length website_text
  else website_text.

(** The f-string, with its two holes. *)
Definition template (context query : string) : string :=
  nl +:+ "        Based on this website content:" +:+
  nl +:+ "        " +:+ context +:+
  nl +:+
  nl +:+ "        Question: " +:+ query +:+
  nl +:+
  nl +:+ "        Please provide a clear and comprehensive answer based on the website content." +:+
  nl +:+ "        Format your response with markdown for better readability." +:+
  nl +:+ "        If the content doesn't contain relevant information, mention that and provide a general response." +:+
  nl +:+ "        ".

Definition prompt (query website_text : string) : string :=
  template (truncated_text website_text) query.

(** The body of the [try] block of [generate_response]. *)
Definition generate_try (env : Env) (query website_text : string)
  : Result string :=
  response ← generate_content env (prompt query website_text);
  r_text response.

Definition generate_response (env : Env) (query website_text : string)
  : string :=
  match generate_try env query website_text with
  | Ok text => text
  | Raise _ => fallback
  end.

End Generator.
Import Generator.

(** ** Session state and the page script *)
Module Session.

(** [st.session_state.analytics] *)
Record Analytics : Type := mkAnalytics {
  total_questions : Z;
  websites_analyzed : gset string;
  last_activity : option string
}.

(** [st.session_state] *)
Record SessionState : Type := mkSession {
  website_content : option Content;
  messages : list Message;
  analytics : Analytics
}.

(** The state the script sets up on the first run of a session. *)
Definition init_state : SessionState := {|
  website_content := None;
  messages := [];
  analytics := {|
    total_questions := 0;
    websites_analyzed := ∅;
    last_activity := None
  |}
|}.

(** A piece of script: it mutates the session state and may raise; the
    mutations made before an exception stay. *)
Definition Script (A : Type) : Type :=
  SessionState -> Result A * SessionState.

#[global] Instance script_ret : MRet Script := fun _ a s => (Ok a, s).
#[global] Instance script_bind : MBind Script := fun _ _ f m s =>
  match m s with
  | (Ok a, s') => f a s'
  | (Raise e, s') => (Raise e, s')
  end.

Definition get_state : Script SessionState := fun s => (Ok s, s).

Definition modify (f : SessionState -> SessionState) : Script unit :=
  fun s => (Ok tt, f s).

Definition modify_analytics (f : Analytics -> Analytics) : Script unit :=
  modify (fun s => {|
    website_content := website_content s;
    messages := messages s;
    analytics := f (analytics s)
  |}).

Definition raise {A : Type} (e : string) : Script A :=
  fun s => (Raise e, s).

(** [st.session_state.website_content = v] *)
Definition set_website_content (v : option Content) : Script unit :=
  modify (fun s => {|
    website_content := v;
    messages := messages s;
    analytics := analytics s
  |}).

(** [st.session_state.messages = v] *)
Definition set_messages (v : list Message) : Script unit :=
  modify (fun s => {|
    website_content := website_content s;
    messages := v;
    analytics := analytics s
  |}).

(** [st.session_state.messages.append(m)] *)
Definition messages_append (m : Message) : Script unit :=
  modify (fun s => {|
    website_content := website_content s;
    messages := messages s ++ [m];
    analytics := analytics s
  |}).

(** [st.session_state.analytics['total_questions'] = n] *)
Definition set_total_questions (n : Z) : Script unit :=
  modify_analytics (fun a => {|
    total_questions := n;
    websites_analyzed := websites_analyzed a;
    last_activity := last_activity a
  |}).

(** [st.session_state.analytics['total_questions'] += 1] *)
Definition incr_total_questions : Script unit :=
  modify_analytics (fun a => {|
    total_questions := total_questions a + 1;
    websites_analyzed := websites_analyzed a;
    last_activity := last_activity a
  |}).

(** [st.session_state.analytics['websites_analyzed'] = v] *)
Definition set_websites_analyzed (v : gset string) : Script unit :=
  modify_analytics (fun a => {|
    total_questions := total_questions a;
    websites_analyzed := v;
    last_activity := last_activity a
  |}).

(** [st.session_state.analytics['websites_analyzed'].add(url)] *)
Definition websites_analyzed_add (url : string) : Script unit :=
  modify_analytics (fun a => {|
    total_questions := total_questions a;
    websites_analyzed := {[ url ]} ∪ websites_analyzed a;
    last_activity := last_activity a
  |}).

(** [st.session_state.analytics['last_activity'] = t] *)
Definition set_last_activity (t : string) : Script unit :=
  modify_analytics (fun a => {|
    total_questions := total_questions a;
    websites_analyzed := websites_analyzed a;
    last_activity := Some t
  |}).

(** [st.session_state.website_content['text']]: subscripting [None] is a
    [TypeError]. *)
Definition website_content_text : Script string :=
  s ← get_state;
  match website_content s with
  | Some c => mret (c_text c)
  | None => raise "'NoneType' object is not subscriptable"
  end.

(** [bool(v)] for a value that is [None] or the six-key dictionary. *)
Definition truthy_content (v : option Content) : bool :=
  match v with
  | Some _ => true
  | None => false
  end.

Definition clear_chat : Script unit :=
  set_messages [];;
  set_total_questions 0.

Definition reset_analysis : Script unit :=
  set_website_content None;;
  set_messages [];;
  set_total_questions 0;;
  set_websites_analyzed ∅.

(** The block under [if url:], with [clicked] the value of the
    "Start Analysis" button. *)
Definition analysis_section (env : Env) (url : string) (clicked : bool)
  : Script unit :=
  if truthy url then
    if clicked then
      let content := extract_website_content env url in
      if truthy_content content then
        set_website_content content;;
        websites_analyzed_add url;;
        set_last_activity (now_analysis env)
      else mret tt
    else mret tt
  else mret tt.

(** The block under [if user_input:]. *)
Definition question_handler (env : Env) (user_input : string)
  : Script unit :=
  incr_total_questions;;
  set_last_activity (now_question env);;
  messages_append {| role := user; content := user_input |};;
  website_text ← website_content_text;
  let response := generate_response env user_input website_text in
  messages_append {| role := assistant; content := response |}.

(** The chat interface, with [user_input] the value of [st.chat_input]. *)
Definition chat_section (env : Env) (user_input : option string)
  : Script unit :=
  s ← get_state;
  if truthy_content (website_content s) then
    match user_input with
    | Some q => if truthy q then question_handler env q else mret tt
    | None => mret tt
    end
  else mret tt.

(** One run of the page script, top to bottom, for given widget values. *)
Definition page (env : Env) (url : string) (clicked : bool)
    (user_input : option string) : Script unit :=
  analysis_section env url clicked;;
  chat_section env user_input.

(** What the user did to cause a run. *)
Inductive Trigger : Type :=
| StartAnalysis
| ChatInput (user_input : string)
| ClearChatClick
| ResetAnalysisClick.

(** A user action, with the content of the URL box and the environment in
    which the resulting run executes. *)
Record Event : Type := mkEvent {
  ev_env : Env;
  ev_url : string;
  ev_trigger : Trigger
}.

(** [on_click] callbacks run before the script.  The page offers the
    "Clear Chat History" button only while the log is non-empty and the
    "Reset Analysis" button only while content is stored; the callbacks
    themselves are total, and a click is modelled in every state. *)
Definition callback (t : Trigger) : Script unit :=
  match t with
  | ClearChatClick => clear_chat
  | ResetAnalysisClick => reset_analysis
  | _ => mret tt
  end.

Definition button_clicked (t : Trigger) : bool :=
  match t with
  | StartAnalysis => true
  | _ => false
  end.

Definition chat_input (t : Trigger) : option string :=
  match t with
  | ChatInput q => Some q
  | _ => None
  end.

Definition run_event (ev : Event) : Script unit :=
  callback (ev_trigger ev);;
  page (ev_env ev) (ev_url ev) (button_clicked (ev_trigger ev))
       (chat_input (ev_trigger ev)).

(** The session state after the run, whether or not the run raised. *)
Definition step (s : SessionState) (ev : Event) : SessionState :=
  snd (run_event ev s).

Definition run_trace (s : SessionState) (tr : list Event) : SessionState :=
  fold_left step tr s.

End Session.
Import Session.

(** ** Trace-level notions used to state the session properties *)

(** The run caused by [ev] performs an extraction and it succeeds. *)
Definition extraction_succeeds (ev : Event) : bool :=
  match ev_trigger ev with
  | StartAnalysis =>
      truthy (ev_url ev) &&
      match extract_website_content (ev_env ev) (ev_url ev) with
      | Some _ => true
      | None => false
      end
  | _ => false
  end.

Definition is_reset (ev : Event) : Prop :=
  ev_trigger ev = ResetAnalysisClick.

Definition is_clear (ev : Event) : Prop :=
  ev_trigger ev = ClearChatClick.

(** Some event of [tr] extracted content successfully and no later event
    of [tr] is a reset. *)
Definition success_since_last_reset (tr : list Event) : Prop :=
  exists pre ev post,
    tr = pre ++ ev :: post /\
    extraction_succeeds ev = true /\
    Forall (fun e => ~ is_reset e) post.

(** The questions put to the assistant along [tr], oldest first: the
    non-empty chat inputs submitted while the chat box is on the page.
    [shown] says whether it is on the page before [tr]; without a reset it
    stays there once an extraction has succeeded. *)
Fixpoint questions_asked (shown : bool) (tr : list Event) : list string :=
  match tr with
  | [] => []
  | ev :: tr' =>
      match ev_trigger ev with
      | ChatInput q =>
          (if shown && truthy q then [q] else []) ++ questions_asked shown tr'
      | _ => questions_asked (shown || extraction_succeeds ev) tr'
      end
  end.

(** [n] pairs of roles: user, assistant, user, assistant, ... *)
Fixpoint alternating (n : nat) : list Role :=
  match n with
  | O => []
  | S n' => user :: assistant :: alternating n'
  end.

(** The service call made for [p] does not produce a text. *)
Definition completion_fails (env : Env) (p : string) : Prop :=
  match generate_content env p with
  | Raise _ => True
  | Ok response =>
      match r_text response with
      | Raise _ => True
      | Ok _ => False
      end
  end.

(** The fetch of [url] raises, or parses to an empty text. *)
Definition fetch_fails (env : Env) (url : string) : Prop :=
  match fetch_article env url with
  | Raise _ => True
  | Ok article => a_text article = EmptyString
  end.

(** The entries of the log written for the user's side. *)
Definition from_user (m : Message) : Prop := role m = user.

#[global] Instance from_user_dec (m : Message) : Decision (from_user m).
Proof. unfold from_user. apply _. Defined.

(** ** Sample environments and inputs *)
Module Sample.

Definition article_url : string := "https://example.com/article".

Definition article : Article := {|
  a_text := "hello world";
  a_title := "T";
  a_publish_date := None;
  a_top_image := ""
|}.

(** The article is served at [article_url]; the address ["https://example.com/empty"]
    parses to an empty text; every other fetch raises. *)
Definition fetch (url : string) : Result Article :=
  if String.eqb url article_url then Ok article
  else if String.eqb url "https://example.com/empty" then
    Ok {| a_text := ""; a_title := "E"; a_publish_date := None;
          a_top_image := "" |}
  else Raise "Article `download()` failed".

(** The service answers. *)
Definition env_up : Env := {|
  fetch_article := fetch;
  generate_content := fun _ => Ok {| r_text := Ok "It greets the world." |};
  now_extract := "2024-01-01 10:00:00";
  now_analysis := "2024-01-01 10:00:01";
  now_question := "2024-01-01 10:05:00"
|}.

(** The service call raises. *)
Definition env_down : Env := {|
  fetch_article := fetch;
  generate_content := fun _ => Raise "429 quota exceeded";
  now_extract := "2024-01-01 11:00:00";
  now_analysis := "2024-01-01 11:00:01";
  now_question := "2024-01-01 11:05:00"
|}.

(** The service returns a response whose text cannot be read. *)
Definition env_blocked : Env := {|
  fetch_article := fetch;
  generate_content := fun _ => Ok {| r_text := Raise "response was blocked" |};
  now_extract := "2024-01-01 12:00:00";
  now_analysis := "2024-01-01 12:00:01";
  now_question := "2024-01-01 12:05:00"
|}.

Definition long_text : string := replicate_char (S max_context_length) "a".

Definition analyse (env : Env) (url : string) : Event :=
  {| ev_env := env; ev_url := url; ev_trigger := StartAnalysis |}.

Definition ask (env : Env) (q : string) : Event :=
  {| ev_env := env; ev_url := article_url; ev_trigger := ChatInput q |}.

Definition click (t : Trigger) : Event :=
  {| ev_env := env_up; ev_url := article_url; ev_trigger := t |}.

(** A session that has analysed the article and asked two questions. *)
Definition busy_state : SessionState :=
  run_trace init_state
    [analyse env_up article_url; ask env_up "What is this about?";
     ask env_down "Who wrote it?"].

End Sample.

(** ** What the page displays *)
Module Display.

(** [bool(v)] for a list: only the empty list is falsy. *)
Definition truthy_list {A : Type} (l : list A) : bool :=
  match l with
  | [] => false
  | _ :: _ => true
  end.

(** The "Questions Analyzed" figure. *)
Definition questions_figure (s : SessionState) : Z :=
  total_questions (analytics s).

(** The "Sites Analyzed" figure:
    [len(st.session_state.analytics['websites_analyzed'])]. *)
Definition sites_analyzed (s : SessionState) : Z :=
  Z.of_nat (size (websites_analyzed (analytics s))).

(** ["user-message" if message["role"] == "user" else "assistant-message"] *)
Definition message_class (m : Message) : string :=
  if decide (role m = user) then "user-message" else "assistant-message".

(** The chat bubbles drawn, as (class, text) pairs; the loop over the log
    sits under [if st.session_state.website_content:]. *)
Definition chat_history (s : SessionState) : list (string * string) :=
  if truthy_content (website_content s)
  then map (fun m => (message_class m, content m)) (messages s)
  else [].

(** The "Current Analysis" panel: title, content size, last updated. *)
Definition current_analysis (s : SessionState)
  : option (string * Z * string) :=
  if truthy_content (website_content s)
  then c ← website_content s; Some (c_title c, c_length c, c_timestamp c)
  else None.

(** Whether the widget behind a trigger is on the page drawn from [s]: the
    start button under [if url:], the chat box and the reset button under
    [if st.session_state.website_content:], the clear button under
    [if st.session_state.messages:]. *)
Definition offered (s : SessionState) (ev : Event) : bool :=
  match ev_trigger ev with
  | StartAnalysis => truthy (ev_url ev)
  | ChatInput _ => truthy_content (website_content s)
  | ClearChatClick => truthy_list (messages s)
  | ResetAnalysisClick => truthy_content (website_content s)
  end.

End Display.
Import Display.

(** ** Setting the session up *)
Module Startup.

(** [st.session_state] as the framework holds it: each key may be absent. *)
Record RawSession : Type := mkRaw {
  raw_website_content : option (option Content);
  raw_messages : option (list Message);
  raw_analytics : option Analytics
}.

(** [if 'website_content' not in st.session_state: ... = None] *)
Definition init_website_content (r : RawSession) : RawSession :=
  match raw_website_content r with
  | Some _ => r
  | None => {|
      raw_website_content := Some None;
      raw_messages := raw_messages r;
      raw_analytics := raw_analytics r
    |}
  end.

(** [if 'messages' not in st.session_state: ... = []] *)
Definition init_messages (r : RawSession) : RawSession :=
  match raw_messages r with
  | Some _ => r
  | None => {|
      raw_website_content := raw_website_content r;
      raw_messages := Some [];
      raw_analytics := raw_analytics r
    |}
  end.

(** [if 'analytics' not in st.session_state: ... = {...}] *)
Definition init_analytics (r : RawSession) : RawSession :=
  match raw_analytics r with
  | Some _ => r
  | None => {|
      raw_website_content := raw_website_content r;
      raw_messages := raw_messages r;
      raw_analytics := Some {|
        total_questions := 0;
        websites_analyzed := ∅;
        last_activity := None
      |}
    |}
  end.

(** The three tests, in the order of the script. *)
Definition initialize (r : RawSession) : RawSession :=
  init_analytics (init_messages (init_website_content r)).

(** The session state, once the three keys are there. *)
Definition session_of (r : RawSession) : option SessionState :=
  wc ← raw_website_content r;
  ms ← raw_messages r;
  an ← raw_analytics r;
  Some {| website_content := wc; messages := ms; analytics := an |}.

Definition raw_of (s : SessionState) : RawSession := {|
  raw_website_content := Some (website_content s);
  raw_messages := Some (messages s);
  raw_analytics := Some (analytics s)
|}.

End Startup.
Import Startup.

(** ** What every run preserves *)

Record SessionInv (s : SessionState) : Prop := mkSessionInv {
  inv_count : 0 <= total_questions (analytics s);
  inv_roles :
    map role (messages s) =
    alternating (Z.to_nat (total_questions (analytics s)));
  inv_nothing_stored :
    website_content s = None ->
    messages s = [] /\
    total_questions (analytics s) = 0 /\
    websites_analyzed (analytics s) = ∅;
  inv_stored :
    forall c : Content,
      website_content s = Some c ->
      c_text c <> EmptyString /\
      c_length c = len (c_text c) /\
      websites_analyzed (analytics s) <> ∅ /\
      last_activity (analytics s) <> None;
  inv_urls :
    forall u : string,
      u ∈ websites_analyzed (analytics s) -> u <> EmptyString
}.

(** The characters the template adds around its two holes. *)
Definition template_overhead : Z := len (template EmptyString EmptyString).

Definition is_callback (ev : Event) : Prop := is_reset ev \/ is_clear ev.

(** ** Proof automation *)

(** Unfold a piece of script down to the state it returns. *)
Ltac run_script :=
  unfold step, run_event, callback, page, analysis_section, chat_section,
    question_handler, website_content_text, clear_chat, reset_analysis,
    set_website_content, set_messages, messages_append, set_total_questions,
    incr_total_questions, set_websites_analyzed, websites_analyzed_add,
    set_last_activity, modify_analytics, modify, get_state, raise,
    mbind, script_bind, mret, script_ret;
  cbn.

(** ** Strings *)

Lemma slice_to_length (n : nat) (s : string) :
  String.length (slice_to n s) = Nat.min n (String.length s).
Proof.
  revert s; induction n as [|n IH]; intros [|c s]; simpl; auto.
Qed.

Lemma slice_to_prefix (n : nat) (s : string) :
  exists rest, s = slice_to n s +:+ rest.
Proof.
  revert s; induction n as [|n IH]; intros s.
  - exists s; reflexivity.
  - destruct s as [|c s]; simpl.
    + exists EmptyString; reflexivity.
    + destruct (IH s) as [rest Hrest].
      exists rest. change (String c s = String c (slice_to n s +:+ rest)).
      f_equal. exact Hrest.
Qed.

Lemma truthy_nonempty (s : string) : truthy s = true <-> s <> EmptyString.
Proof. destruct s; simpl; split; congruence. Qed.

(** ** ResponseGenerator: the context *)

(** C1: a text longer than 5000 characters enters the prompt as its first
    5000 characters (a prefix of the text, of length 5000); a text of at
    most 5000 characters enters it unchanged.  The prompt handed to the
    completion service is the template filled with that context. *)
Theorem truncated_text_spec (env : Env) (query website_text : string) :
  (len website_text > 5000 ->
     len (truncated_text website_text) = 5000 /\
     exists rest, website_text = truncated_text website_text +:+ rest) /\
  (len website_text <= 5000 ->
     truncated_text website_text = website_text) /\
  generate_try env query website_text =
    (response ← generate_content env
                  (template (truncated_text website_text) query);
     r_text response).
Proof.
  unfold truncated_text, len, max_context_length.
  split; [|split].
  - intros Hlong.
    destruct (Z.ltb_spec (Z.of_nat 5000) (Z.of_nat (String.length website_text)))
      as [_|Hle]; [|lia].
    split.
    + rewrite slice_to_length. lia.
    + apply slice_to_prefix.
  - intros Hshort.
    destruct (Z.ltb_spec (Z.of_nat 5000) (Z.of_nat (String.length website_text)))
      as [Hlt|_]; [lia|reflexivity].
  - reflexivity.
Qed.

Lemma truncated_text_spec_witness :
  len Sample.long_text > 5000 /\
  len (truncated_text Sample.long_text) = 5000 /\
  len "hello world" <= 5000 /\
  truncated_text "hello world" = "hello world".
Proof.
  assert (Hlong : len Sample.long_text > 5000) by (vm_compute; reflexivity).
  assert (Hshort : len "hello world" <= 5000) by (vm_compute; discriminate).
  split; [exact Hlong|].
  split.
  - exact (proj1 (proj1 (truncated_text_spec Sample.env_up "q" Sample.long_text)
                    Hlong)).
  - split; [exact Hshort|].
    exact (proj1 (proj2 (truncated_text_spec Sample.env_up "q" "hello world"))
             Hshort).
Defined.

(** ** ContentExtractor *)

Lemma extract_try_ok (env : Env) (url : string) (article : Article) :
  fetch_article env url = Ok article ->
  a_text article <> EmptyString ->
  extract_try env url = Ok {|
    c_text := a_text article;
    c_title := a_title article;
    c_publish_date := a_publish_date article;
    c_top_image := a_top_image article;
    c_length := len (a_text article);
    c_timestamp := now_extract env
  |}.
Proof.
  intros Hfetch Htext. unfold extract_try. rewrite Hfetch.
  unfold mbind, result_bind, mret, result_ret; cbn.
  destruct (a_text article) as [|ch rest] eqn:E; [congruence|].
  reflexivity.
Qed.

Lemma extract_fails (env : Env) (url : string) :
  fetch_fails env url -> extract_website_content env url = None.
Proof.
  unfold fetch_fails, extract_website_content, extract_try.
  destruct (fetch_article env url) as [article|e]; [|reflexivity].
  intros Hempty. unfold mbind, result_bind; cbn.
  rewrite Hempty. reflexivity.
Qed.

(** C2: when the fetch and parse of [url] give an article with a non-empty
    text, the extraction returns a record; its text is that non-empty text
    and its length field is the character count of its text field. *)
Theorem extract_success_length (env : Env) (url : string) (article : Article) :
  fetch_article env url = Ok article ->
  a_text article <> EmptyString ->
  exists c : Content,
    extract_website_content env url = Some c /\
    c_text c = a_text article /\
    c_text c <> EmptyString /\
    c_length c = Z.of_nat (String.length (c_text c)).
Proof.
  intros Hfetch Htext.
  unfold extract_website_content.
  rewrite (extract_try_ok env url article Hfetch Htext).
  eexists; split; [reflexivity|]. cbn. auto.
Qed.

Lemma extract_success_length_witness :
  exists c : Content,
    extract_website_content Sample.env_up Sample.article_url = Some c /\
    c_text c = "hello world" /\
    c_text c <> EmptyString /\
    c_length c = 11.
Proof.
  destruct (extract_success_length Sample.env_up Sample.article_url
              Sample.article eq_refl) as (c & Hc & Htext & Hne & Hlen).
  - discriminate.
  - exists c. rewrite Hlen, Htext. auto.
Defined.

(** ** Session orchestration: single runs *)

(** A run without click and without chat input leaves the state alone. *)
Lemma page_idle (env : Env) (url : string) (s : SessionState) :
  page env url false None s = (Ok tt, s).
Proof.
  run_script.
  destruct (truthy url); cbn; destruct (website_content s); reflexivity.
Qed.

(** A failed analysis leaves the whole session state alone. *)
Lemma step_failed_analysis (env : Env) (url : string) (s : SessionState) :
  extract_website_content env url = None ->
  step s {| ev_env := env; ev_url := url; ev_trigger := StartAnalysis |} = s.
Proof.
  intros Hnone. run_script. rewrite Hnone.
  destruct (truthy url); cbn; destruct (website_content s); reflexivity.
Qed.

(** A successful analysis stores the record, adds the URL and stamps the
    activity; chat log and counter stay. *)
Lemma step_successful_analysis (env : Env) (url : string) (c : Content)
    (s : SessionState) :
  truthy url = true ->
  extract_website_content env url = Some c ->
  step s {| ev_env := env; ev_url := url; ev_trigger := StartAnalysis |} =
  {| website_content := Some c;
     messages := messages s;
     analytics := {|
       total_questions := total_questions (analytics s);
       websites_analyzed := {[ url ]} ∪ websites_analyzed (analytics s);
       last_activity := Some (now_analysis env)
     |}
  |}.
Proof.
  intros Hurl Hsome. run_script. rewrite Hurl, Hsome. reflexivity.
Qed.

(** A question put while content is stored. *)
Lemma step_question (env : Env) (url q : string) (c : Content)
    (s : SessionState) :
  website_content s = Some c ->
  truthy q = true ->
  run_event {| ev_env := env; ev_url := url; ev_trigger := ChatInput q |} s =
  (Ok tt,
   {| website_content := Some c;
      messages := (messages s ++ [ {| role := user; content := q |} ]) ++
                  [ {| role := assistant;
                       content := generate_response env q (c_text c) |} ];
      analytics := {|
        total_questions := total_questions (analytics s) + 1;
        websites_analyzed := websites_analyzed (analytics s);
        last_activity := Some (now_question env)
      |}
   |}).
Proof.
  intros Hc Hq. run_script.
  destruct (truthy url); cbn; rewrite Hc; cbn; rewrite Hq; cbn;
    rewrite Hc; reflexivity.
Qed.

Lemma step_question_state (env : Env) (url q : string) (c : Content)
    (s : SessionState) :
  website_content s = Some c ->
  truthy q = true ->
  step s {| ev_env := env; ev_url := url; ev_trigger := ChatInput q |} =
  {| website_content := Some c;
     messages := (messages s ++ [ {| role := user; content := q |} ]) ++
                 [ {| role := assistant;
                      content := generate_response env q (c_text c) |} ];
     analytics := {|
       total_questions := total_questions (analytics s) + 1;
       websites_analyzed := websites_analyzed (analytics s);
       last_activity := Some (now_question env)
     |}
  |}.
Proof.
  intros Hc Hq. unfold step. rewrite (step_question env url q c s Hc Hq).
  reflexivity.
Qed.

(** A chat input that is empty, or arrives while nothing is stored, does
    nothing. *)
Lemma step_question_ignored (env : Env) (url q : string) (s : SessionState) :
  website_content s = None \/ truthy q = false ->
  step s {| ev_env := env; ev_url := url; ev_trigger := ChatInput q |} = s.
Proof.
  intros H. run_script.
  destruct (truthy url); cbn;
    destruct (website_content s); cbn; try reflexivity;
    destruct H as [H|H]; try discriminate; rewrite H; reflexivity.
Qed.

Lemma step_clear (env : Env) (url : string) (s : SessionState) :
  step s {| ev_env := env; ev_url := url; ev_trigger := ClearChatClick |} =
  snd (clear_chat s).
Proof.
  unfold step, run_event, callback; cbn [ev_trigger ev_env ev_url button_clicked chat_input].
  unfold mbind at 1, script_bind at 1.
  destruct (clear_chat s) as [[[]|e] s'] eqn:E.
  - rewrite page_idle. reflexivity.
  - reflexivity.
Qed.

Lemma step_reset (env : Env) (url : string) (s : SessionState) :
  step s {| ev_env := env; ev_url := url; ev_trigger := ResetAnalysisClick |} =
  snd (reset_analysis s).
Proof.
  unfold step, run_event, callback; cbn [ev_trigger ev_env ev_url button_clicked chat_input].
  unfold mbind at 1, script_bind at 1.
  destruct (reset_analysis s) as [[[]|e] s'] eqn:E.
  - rewrite page_idle. reflexivity.
  - reflexivity.
Qed.

(** No run of the script dies of an exception. *)
Lemma run_event_ok (ev : Event) (s : SessionState) :
  fst (run_event ev s) = Ok tt.
Proof.
  destruct s as [[c|] ms an], ev as [env url [|q| |]]; run_script;
    destruct (truthy url); cbn;
    try destruct (extract_website_content env url); cbn;
    try destruct (truthy q); cbn; reflexivity.
Qed.

(** ** Extraction failure *)

(** C3: when the fetch of [url] raises or parses to an empty text, the
    extraction returns [None], and the run of the page that attempted the
    analysis leaves the stored content as it was. *)
Theorem failed_extraction_keeps_content (env : Env) (url : string)
    (s : SessionState) :
  fetch_fails env url ->
  extract_website_content env url = None /\
  website_content
    (step s {| ev_env := env; ev_url := url; ev_trigger := StartAnalysis |}) =
  website_content s.
Proof.
  intros Hfail.
  pose proof (extract_fails env url Hfail) as Hnone.
  split; [exact Hnone|].
  rewrite (step_failed_analysis env url s Hnone). reflexivity.
Qed.

Lemma failed_extraction_keeps_content_witness :
  (extract_website_content Sample.env_up "https://example.com/empty" = None /\
   website_content
     (step Sample.busy_state
        (Sample.analyse Sample.env_up "https://example.com/empty")) =
   website_content Sample.busy_state) /\
  (extract_website_content Sample.env_up "https://example.org/" = None /\
   website_content
     (step Sample.busy_state
        (Sample.analyse Sample.env_up "https://example.org/")) =
   website_content Sample.busy_state) /\
  website_content Sample.busy_state <> None.
Proof.
  split; [|split].
  - apply (failed_extraction_keeps_content Sample.env_up
             "https://example.com/empty" Sample.busy_state).
    reflexivity.
  - apply (failed_extraction_keeps_content Sample.env_up
             "https://example.org/" Sample.busy_state).
    exact I.
  - discriminate.
Defined.

(** C9: a run whose extraction returns [None] leaves the set of analysed
    URLs and the activity stamp as they were; in particular a URL that was
    not in the set is not in it afterwards. *)
Theorem failed_extraction_keeps_analytics (env : Env) (url : string)
    (s : SessionState) :
  extract_website_content env url = None ->
  let s' :=
    step s {| ev_env := env; ev_url := url; ev_trigger := StartAnalysis |} in
  websites_analyzed (analytics s') = websites_analyzed (analytics s) /\
  last_activity (analytics s') = last_activity (analytics s) /\
  (url ∉ websites_analyzed (analytics s) ->
   url ∉ websites_analyzed (analytics s')).
Proof.
  intros Hnone s'. subst s'.
  rewrite (step_failed_analysis env url s Hnone). auto.
Qed.

Lemma failed_extraction_keeps_analytics_witness :
  let s' := step Sample.busy_state
              (Sample.analyse Sample.env_up "https://example.org/") in
  websites_analyzed (analytics s') =
    websites_analyzed (analytics Sample.busy_state) /\
  last_activity (analytics s') = Some "2024-01-01 11:05:00" /\
  "https://example.org/" ∉ websites_analyzed (analytics s').
Proof.
  destruct (failed_extraction_keeps_analytics Sample.env_up
              "https://example.org/" Sample.busy_state eq_refl)
    as (Hset & Hlast & Hnotin).
  intros s'; subst s'; unfold Sample.analyse.
  split; [exact Hset|]. split.
  - rewrite Hlast. reflexivity.
  - apply Hnotin. vm_compute. set_solver.
Defined.

(** ** Generation failure *)

Lemma generate_response_fallback (env : Env) (q text : string) :
  completion_fails env (prompt q text) ->
  generate_response env q text = fallback.
Proof.
  unfold completion_fails, generate_response, generate_try.
  unfold mbind, result_bind.
  destruct (generate_content env (prompt q text)) as [response|e];
    [|reflexivity].
  destruct (r_text response); [intros []|reflexivity].
Qed.

(** C4: when the completion call made for a question raises (or its
    result has no readable text), [generate_response] returns the fixed
    apology, and the run that handled the question has counted it and has
    appended the user message followed by the apology. *)
Theorem generation_failure_recorded (env : Env) (url q : string) (c : Content)
    (s : SessionState) :
  website_content s = Some c ->
  q <> EmptyString ->
  completion_fails env (prompt q (c_text c)) ->
  let s' :=
    step s {| ev_env := env; ev_url := url; ev_trigger := ChatInput q |} in
  generate_response env q (c_text c) = fallback /\
  total_questions (analytics s') = total_questions (analytics s) + 1 /\
  messages s' =
    messages s ++ [ {| role := user; content := q |};
                    {| role := assistant; content := fallback |} ].
Proof.
  intros Hc Hq Hfail s'. subst s'.
  pose proof (generate_response_fallback env q (c_text c) Hfail) as Hfb.
  split; [exact Hfb|].
  unfold step.
  rewrite (step_question env url q c s Hc (proj2 (truthy_nonempty q) Hq)).
  cbn. rewrite Hfb, <- app_assoc. auto.
Qed.

Lemma generation_failure_recorded_witness :
  let s := run_trace init_state [Sample.analyse Sample.env_up Sample.article_url] in
  let down := step s (Sample.ask Sample.env_down "Who wrote it?") in
  let blocked := step s (Sample.ask Sample.env_blocked "Who wrote it?") in
  (total_questions (analytics down) = 1 /\
   messages down = [ {| role := user; content := "Who wrote it?" |};
                     {| role := assistant; content := fallback |} ]) /\
  (total_questions (analytics blocked) = 1 /\
   messages blocked = [ {| role := user; content := "Who wrote it?" |};
                        {| role := assistant; content := fallback |} ]).
Proof.
  intros s down blocked.
  assert (Hq : "Who wrote it?" <> EmptyString) by discriminate.
  split.
  - exact (proj2 (generation_failure_recorded Sample.env_down
                    Sample.article_url "Who wrote it?" _ s eq_refl Hq I)).
  - exact (proj2 (generation_failure_recorded Sample.env_blocked
                    Sample.article_url "Who wrote it?" _ s eq_refl Hq I)).
Defined.

(** ** The two callbacks *)

(** C5: whatever the session state, [reset_analysis] leaves no stored
    content, an empty message log, a zero question counter and an empty
    set of analysed URLs. *)
Theorem reset_analysis_clears (s : SessionState) :
  fst (reset_analysis s) = Ok tt /\
  website_content (snd (reset_analysis s)) = None /\
  messages (snd (reset_analysis s)) = [] /\
  total_questions (analytics (snd (reset_analysis s))) = 0 /\
  websites_analyzed (analytics (snd (reset_analysis s))) = ∅.
Proof. run_script. auto. Qed.

(** C6: whatever the session state (so also with a counter [K] and a
    non-empty log), [clear_chat] leaves a zero question counter and an
    empty message log, and does not touch the set of analysed URLs nor the
    stored content. *)
Theorem clear_chat_frame (s : SessionState) :
  fst (clear_chat s) = Ok tt /\
  total_questions (analytics (snd (clear_chat s))) = 0 /\
  messages (snd (clear_chat s)) = [] /\
  websites_analyzed (analytics (snd (clear_chat s))) =
    websites_analyzed (analytics s) /\
  website_content (snd (clear_chat s)) = website_content s.
Proof. run_script. auto. Qed.

(** C10: neither [clear_chat] nor [reset_analysis] changes the activity
    stamp. *)
Theorem callbacks_keep_last_activity (s : SessionState) :
  last_activity (analytics (snd (clear_chat s))) =
    last_activity (analytics s) /\
  last_activity (analytics (snd (reset_analysis s))) =
    last_activity (analytics s).
Proof. run_script. auto. Qed.

(** ** Sessions *)

Lemma run_trace_snoc (s : SessionState) (tr : list Event) (ev : Event) :
  run_trace s (tr ++ [ev]) = step (run_trace s tr) ev.
Proof. unfold run_trace. rewrite fold_left_app. reflexivity. Qed.

(** What a run does to the stored content. *)
Lemma step_website_content (s : SessionState) (ev : Event) :
  website_content (step s ev) =
  match ev_trigger ev with
  | ResetAnalysisClick => None
  | StartAnalysis =>
      if extraction_succeeds ev
      then extract_website_content (ev_env ev) (ev_url ev)
      else website_content s
  | _ => website_content s
  end.
Proof.
  destruct ev as [env url [|q| |]]; cbn [ev_trigger].
  - unfold extraction_succeeds; cbn [ev_trigger ev_env ev_url].
    destruct (truthy url) eqn:Hurl; cbn [andb].
    + destruct (extract_website_content env url) as [c|] eqn:Hx.
      * rewrite (step_successful_analysis env url c s Hurl Hx). reflexivity.
      * rewrite (step_failed_analysis env url s Hx). reflexivity.
    + destruct s as [[c|] ms an]; run_script; rewrite Hurl; reflexivity.
  - destruct (website_content s) as [c|] eqn:Hc, (truthy q) eqn:Hq.
    + unfold step. rewrite (step_question env url q c s Hc Hq). reflexivity.
    + rewrite step_question_ignored; auto.
    + rewrite step_question_ignored; auto.
    + rewrite step_question_ignored; auto.
  - rewrite step_clear. run_script. reflexivity.
  - rewrite step_reset. run_script. reflexivity.
Qed.

Lemma extraction_succeeds_Some (ev : Event) :
  extraction_succeeds ev = true ->
  exists c, extract_website_content (ev_env ev) (ev_url ev) = Some c.
Proof.
  unfold extraction_succeeds.
  destruct (ev_trigger ev); try discriminate.
  destruct (truthy (ev_url ev)); try discriminate.
  destruct (extract_website_content (ev_env ev) (ev_url ev)) as [c|];
    try discriminate.
  intros _. exists c. reflexivity.
Qed.

Lemma extraction_succeeds_not_reset (ev : Event) :
  extraction_succeeds ev = true -> ~ is_reset ev.
Proof.
  unfold extraction_succeeds, is_reset.
  destruct (ev_trigger ev); discriminate.
Qed.

Lemma success_since_last_reset_nil : ~ success_since_last_reset [].
Proof.
  intros (pre & ev & post & Heq & _). destruct pre; discriminate.
Qed.

Lemma success_since_last_reset_snoc (tr : list Event) (ev : Event) :
  success_since_last_reset (tr ++ [ev]) <->
  extraction_succeeds ev = true \/
  (~ is_reset ev /\ success_since_last_reset tr).
Proof.
  split.
  - intros (pre & ev' & post & Heq & Hok & Hpost).
    induction post as [|last post' _] using rev_ind.
    + apply app_inj_tail in Heq as [_ <-]. left. exact Hok.
    + rewrite app_comm_cons, app_assoc in Heq.
      apply app_inj_tail in Heq as [-> <-].
      apply Forall_app in Hpost as [Hpost' Hlast].
      right. split.
      * inversion Hlast; assumption.
      * exists pre, ev', post'. auto.
  - intros [Hok|[Hnr (pre & ev' & post & -> & Hok & Hpost)]].
    + exists tr, ev, []. auto.
    + exists pre, ev', (post ++ [ev]).
      rewrite <- app_assoc. repeat split; auto.
      apply Forall_app. auto.
Qed.

(** C8: along every sequence of runs from the initial state, nothing is
    stored exactly when no extraction has succeeded since the last reset
    (or since the start); and in the state reached, a non-empty chat input
    is acted upon if and only if something is stored. *)
Theorem content_null_iff_no_success (tr : list Event) :
  let s := run_trace init_state tr in
  (website_content s = None <-> ~ success_since_last_reset tr) /\
  (forall (env : Env) (url q : string),
     q <> EmptyString ->
     step s {| ev_env := env; ev_url := url; ev_trigger := ChatInput q |} <> s
     <-> website_content s <> None).
Proof.
  cbv zeta. split.
  - induction tr as [|ev tr IH] using rev_ind.
    + split; [intros _; apply success_since_last_reset_nil|reflexivity].
    + rewrite run_trace_snoc, step_website_content,
        success_since_last_reset_snoc.
      pose proof (extraction_succeeds_Some ev) as Hsome.
      pose proof (extraction_succeeds_not_reset ev) as Hnr.
      unfold is_reset in *.
      destruct (ev_trigger ev) eqn:Ht.
      * destruct (extraction_succeeds ev) eqn:Hx.
        -- destruct (Hsome eq_refl) as [c ->].
           split; [discriminate|]. intros H; exfalso; apply H; auto.
        -- rewrite IH. split.
           ++ intros Hn [Hf|[_ Hs]]; [discriminate|auto].
           ++ intros Hn Hs. apply Hn. right. split; [discriminate|exact Hs].
      * assert (Hx : extraction_succeeds ev = false)
          by (unfold extraction_succeeds; rewrite Ht; reflexivity).
        rewrite IH, Hx. split.
        -- intros Hn [Hf|[_ Hs]]; [discriminate|auto].
        -- intros Hn Hs. apply Hn. right. split; [discriminate|exact Hs].
      * assert (Hx : extraction_succeeds ev = false)
          by (unfold extraction_succeeds; rewrite Ht; reflexivity).
        rewrite IH, Hx. split.
        -- intros Hn [Hf|[_ Hs]]; [discriminate|auto].
        -- intros Hn Hs. apply Hn. right. split; [discriminate|exact Hs].
      * assert (Hx : extraction_succeeds ev = false)
          by (unfold extraction_succeeds; rewrite Ht; reflexivity).
        rewrite Hx. split; [|reflexivity].
        intros _ [Hf|[Hr _]]; [discriminate|auto].
  - intros env url q Hq.
    apply truthy_nonempty in Hq.
    destruct (website_content (run_trace init_state tr)) as [c|] eqn:Hc.
    + split; [discriminate|]. intros _ Heq.
      apply (f_equal (fun s => total_questions (analytics s))) in Heq.
      unfold step in Heq.
      rewrite (step_question env url q c _ Hc Hq) in Heq. cbn in Heq. lia.
    + split; [|congruence]. intros Hne. exfalso. apply Hne.
      apply step_question_ignored. auto.
Qed.

Lemma content_null_iff_no_success_witness :
  ~ success_since_last_reset
    [Sample.analyse Sample.env_up Sample.article_url;
     Sample.click ResetAnalysisClick;
     Sample.analyse Sample.env_up "https://example.org/"] /\
  step (run_trace init_state [Sample.analyse Sample.env_up Sample.article_url])
       (Sample.ask Sample.env_up "What is this about?") <>
  run_trace init_state [Sample.analyse Sample.env_up Sample.article_url].
Proof.
  split.
  - apply (content_null_iff_no_success
             [Sample.analyse Sample.env_up Sample.article_url;
              Sample.click ResetAnalysisClick;
              Sample.analyse Sample.env_up "https://example.org/"]).
    reflexivity.
  - apply (content_null_iff_no_success
             [Sample.analyse Sample.env_up Sample.article_url]).
    + discriminate.
    + discriminate.
Defined.

(** ** Counting questions *)

Lemma alternating_length (n : nat) : length (alternating n) = (2 * n)%nat.
Proof. induction n as [|n IH]; simpl; [reflexivity|rewrite IH; lia]. Qed.

(** A run triggered by the analysis button touches neither the log nor the
    counter. *)
Lemma step_analysis_frame (env : Env) (url : string) (s : SessionState) :
  let s' :=
    step s {| ev_env := env; ev_url := url; ev_trigger := StartAnalysis |} in
  messages s' = messages s /\
  total_questions (analytics s') = total_questions (analytics s).
Proof.
  cbv zeta.
  destruct (extract_website_content env url) as [c|] eqn:Hx.
  - destruct (truthy url) eqn:Hurl.
    + rewrite (step_successful_analysis env url c s Hurl Hx). auto.
    + destruct s as [[c'|] ms an]; run_script; rewrite Hurl; auto.
  - rewrite (step_failed_analysis env url s Hx). auto.
Qed.

Lemma run_trace_questions (tr : list Event) :
  forall s : SessionState,
    Forall (fun e => ~ is_reset e /\ ~ is_clear e) tr ->
    let qs := questions_asked (truthy_content (website_content s)) tr in
    let s' := run_trace s tr in
    total_questions (analytics s') =
      total_questions (analytics s) + Z.of_nat (length qs) /\
    map role (messages s') =
      map role (messages s) ++ alternating (length qs) /\
    map content (filter from_user (messages s')) =
      map content (filter from_user (messages s)) ++ qs.
Proof.
  induction tr as [|ev tr IH]; intros s Hall; cbv zeta.
  - cbn. rewrite !app_nil_r. split; [lia|auto].
  - apply Forall_cons in Hall as [[Hnr Hnc] Hall].
    specialize (IH (step s ev) Hall). cbv zeta in IH.
    change (run_trace s (ev :: tr)) with (run_trace (step s ev) tr).
    pose proof (step_website_content s ev) as Hwc.
    unfold is_reset, is_clear in Hnr, Hnc.
    destruct ev as [env url t]; cbn [ev_trigger ev_env ev_url] in *.
    destruct t as [|q| |]; try congruence; cbn [questions_asked ev_trigger].
    + (* analysis *)
      destruct (step_analysis_frame env url s) as [Hm Ht].
      assert (Hshown :
        truthy_content (website_content
          (step s {| ev_env := env; ev_url := url;
                     ev_trigger := StartAnalysis |})) =
        truthy_content (website_content s) ||
        extraction_succeeds {| ev_env := env; ev_url := url;
                               ev_trigger := StartAnalysis |}).
      { rewrite Hwc.
        pose proof (extraction_succeeds_Some
                      {| ev_env := env; ev_url := url;
                         ev_trigger := StartAnalysis |}) as Hsome.
        destruct (extraction_succeeds _).
        - destruct (Hsome eq_refl) as [c Hc]. cbn in Hc. rewrite Hc.
          rewrite orb_true_r. reflexivity.
        - rewrite orb_false_r. reflexivity. }
      rewrite Hshown, Hm, Ht in IH. exact IH.
    + (* chat input *)
      destruct (website_content s) as [c|] eqn:Hc; cbn [truthy_content andb].
      * destruct (truthy q) eqn:Hq.
        -- rewrite Hwc in IH. cbn [truthy_content] in IH.
           rewrite (step_question_state env url q c s Hc Hq) in IH |- *.
           cbn [messages analytics total_questions] in IH.
           destruct IH as (Ht & Hr & Hu).
           rewrite length_app. cbn [length Nat.add alternating].
           rewrite Ht, Hr, Hu.
           rewrite !map_app, !filter_app, !map_app. cbn.
           rewrite <- !app_assoc. cbn.
           split; [lia|]. split; reflexivity.
        -- rewrite step_question_ignored in IH |- * by auto.
           rewrite Hc in IH. exact IH.
      * rewrite step_question_ignored in IH |- * by auto.
        rewrite Hc in IH. exact IH.
Qed.

(** C7: from a state with an empty log and a zero counter (the state after
    a reset, or the initial one), along any sequence of runs without reset
    and without clearing, if [N] questions were asked then the counter is
    [N] and the log has [2N] entries whose roles alternate user, assistant,
    beginning with user; the user entries are the questions, in order. *)
Theorem questions_counted_and_logged (s0 : SessionState) (tr : list Event) :
  messages s0 = [] ->
  total_questions (analytics s0) = 0 ->
  Forall (fun e => ~ is_reset e /\ ~ is_clear e) tr ->
  let qs := questions_asked (truthy_content (website_content s0)) tr in
  let s := run_trace s0 tr in
  total_questions (analytics s) = Z.of_nat (length qs) /\
  length (messages s) = (2 * length qs)%nat /\
  map role (messages s) = alternating (length qs) /\
  map content (filter from_user (messages s)) = qs.
Proof.
  intros Hm Ht Hall. cbv zeta.
  destruct (run_trace_questions tr s0 Hall) as (Hcount & Hroles & Husers).
  rewrite Hm, Ht in *. cbn in Hroles, Husers.
  split; [lia|]. split; [|auto].
  rewrite <- (length_map role), Hroles. apply alternating_length.
Qed.

Lemma questions_counted_and_logged_witness :
  total_questions (analytics Sample.busy_state) = 2 /\
  length (messages Sample.busy_state) = 4%nat /\
  map role (messages Sample.busy_state) =
    [user; assistant; user; assistant] /\
  map content (filter from_user (messages Sample.busy_state)) =
    ["What is this about?"; "Who wrote it?"].
Proof.
  apply (questions_counted_and_logged init_state
           [Sample.analyse Sample.env_up Sample.article_url;
            Sample.ask Sample.env_up "What is this about?";
            Sample.ask Sample.env_down "Who wrote it?"]).
  - reflexivity.
  - reflexivity.
  - repeat constructor; discriminate.
Defined.

(** ** The scenario of the specification, end to end *)

Example scenario_article :
  let s := run_trace init_state
             [Sample.analyse Sample.env_up Sample.article_url;
              Sample.ask Sample.env_up "What is this about?"] in
  (c_length <$> website_content s) = Some 11 /\
  messages s = [ {| role := user; content := "What is this about?" |};
                 {| role := assistant; content := "It greets the world." |} ] /\
  total_questions (analytics s) = 1 /\
  websites_analyzed (analytics s) = {[ Sample.article_url ]}.
Proof.
  cbv zeta. repeat split; reflexivity.
Qed.

Example scenario_question_before_analysis :
  step init_state (Sample.ask Sample.env_up "What is this about?") =
  init_state.
Proof. reflexivity. Qed.

(** ** More on the response generator *)

Lemma string_length_app (s1 s2 : string) :
  String.length (s1 +:+ s2) = (String.length s1 + String.length s2)%nat.
Proof. induction s1 as [|c s1 IH]; simpl; [reflexivity|rewrite IH; reflexivity]. Qed.

Lemma slice_to_all (n : nat) (s : string) :
  (String.length s <= n)%nat -> slice_to n s = s.
Proof.
  revert s; induction n as [|n IH]; intros [|c s]; simpl; intros H;
    try reflexivity; [lia|].
  rewrite IH by lia. reflexivity.
Qed.

Lemma slice_to_idemp (n : nat) (s : string) :
  slice_to n (slice_to n s) = slice_to n s.
Proof.
  apply slice_to_all. rewrite slice_to_length. lia.
Qed.

Lemma truncated_text_slice (t : string) :
  truncated_text t = slice_to max_context_length t.
Proof.
  unfold truncated_text, len.
  destruct (Z.ltb_spec (Z.of_nat max_context_length)
              (Z.of_nat (String.length t))) as [_|Hle]; [reflexivity|].
  symmetry. apply slice_to_all. lia.
Qed.

Lemma template_length (context query : string) :
  len (template context query) =
  len context + len query + template_overhead.
Proof.
  unfold template_overhead, template, len.
  rewrite !string_length_app. cbn. lia.
Qed.

(** X1: the conditional of [generate_response] is the plain slice
    [website_text[:5000]] for every text, so the context has
    [min(5000, len(website_text))] characters, and truncating twice is
    truncating once. *)
Theorem truncated_text_is_slice (website_text : string) :
  truncated_text website_text = slice_to 5000 website_text /\
  len (truncated_text website_text) = Z.min 5000 (len website_text) /\
  truncated_text (truncated_text website_text) = truncated_text website_text.
Proof.
  rewrite !truncated_text_slice. unfold max_context_length, len.
  split; [reflexivity|]. split.
  - rewrite slice_to_length. lia.
  - apply slice_to_idemp.
Qed.

(** X2: the reply depends on the website text only through its first 5000
    characters: two texts that agree there get the same reply. *)
Theorem response_depends_on_prefix (env : Env) (query t1 t2 : string) :
  slice_to 5000 t1 = slice_to 5000 t2 ->
  prompt query t1 = prompt query t2 /\
  generate_response env query t1 = generate_response env query t2.
Proof.
  intros Hsame.
  assert (Hp : prompt query t1 = prompt query t2).
  { unfold prompt. rewrite !truncated_text_slice.
    unfold max_context_length. rewrite Hsame. reflexivity. }
  split; [exact Hp|].
  unfold generate_response, generate_try. rewrite Hp. reflexivity.
Qed.

Lemma response_depends_on_prefix_witness :
  Sample.long_text <> Sample.long_text +:+ "tail" /\
  prompt "q" Sample.long_text = prompt "q" (Sample.long_text +:+ "tail") /\
  generate_response Sample.env_up "q" Sample.long_text =
  generate_response Sample.env_up "q" (Sample.long_text +:+ "tail").
Proof.
  split.
  - intros Heq. apply (f_equal String.length) in Heq.
    vm_compute in Heq. discriminate.
  - apply (response_depends_on_prefix Sample.env_up "q" Sample.long_text
             (Sample.long_text +:+ "tail")).
    vm_compute. reflexivity.
Defined.

(** X3: the prompt has exactly the characters of the context, those of the
    question and 337 of the template; so it never exceeds
    [5337 + len(query)] characters, whatever the size of the website. *)
Theorem prompt_length_bound (query website_text : string) :
  len (prompt query website_text) =
    Z.min 5000 (len website_text) + len query + 337 /\
  len (prompt query website_text) <= 5337 + len query.
Proof.
  unfold prompt. rewrite template_length, truncated_text_slice.
  assert (Hctx : len (slice_to max_context_length website_text) =
                 Z.min 5000 (len website_text)).
  { unfold len, max_context_length. rewrite slice_to_length. lia. }
  rewrite Hctx. change template_overhead with 337. lia.
Qed.

(** X4: [generate_response] hands the service the template filled with
    [website_text[:5000]] and the question; its result is the text of the
    response, unmodified, when the call and the reading of the text both
    succeed, and the fixed apology in every other case. *)
Theorem generate_response_cases (env : Env) (query website_text : string) :
  generate_response env query website_text =
  match generate_content env (template (slice_to 5000 website_text) query) with
  | Ok response =>
      match r_text response with
      | Ok text => text
      | Raise _ => fallback
      end
  | Raise _ => fallback
  end.
Proof.
  unfold generate_response, generate_try, prompt.
  rewrite truncated_text_slice. unfold max_context_length, mbind, result_bind.
  destruct (generate_content env _) as [response|e]; reflexivity.
Qed.

(** ** More on the extractor *)

Lemma extract_Some_inv (env : Env) (url : string) (c : Content) :
  extract_website_content env url = Some c ->
  exists article : Article,
    fetch_article env url = Ok article /\
    a_text article <> EmptyString /\
    c = {| c_text := a_text article;
           c_title := a_title article;
           c_publish_date := a_publish_date article;
           c_top_image := a_top_image article;
           c_length := len (a_text article);
           c_timestamp := now_extract env |}.
Proof.
  unfold extract_website_content, extract_try.
  destruct (fetch_article env url) as [article|e]; [|discriminate].
  unfold mbind, result_bind, mret, result_ret; cbn.
  destruct (a_text article) as [|ch rest] eqn:Htext; cbn; [discriminate|].
  intros [= <-]. exists article. rewrite Htext. auto.
Qed.

(** X5: a record returned by [extract_website_content] comes from a fetch
    that succeeded with a non-empty text; it carries the article's text,
    title, publish date and top image as parsed, the character count of the
    text (so a positive length) and the time of the extraction. *)
Theorem extract_record_fields (env : Env) (url : string) (c : Content) :
  extract_website_content env url = Some c ->
  exists article : Article,
    fetch_article env url = Ok article /\
    c_text c = a_text article /\
    c_title c = a_title article /\
    c_publish_date c = a_publish_date article /\
    c_top_image c = a_top_image article /\
    c_timestamp c = now_extract env /\
    c_length c = len (c_text c) /\
    0 < c_length c.
Proof.
  intros Hx.
  destruct (extract_Some_inv env url c Hx) as (article & Hf & Hne & ->).
  exists article. cbn. repeat split; auto.
  unfold len. destruct (a_text article); [congruence|cbn; lia].
Qed.

Lemma extract_record_fields_witness :
  exists article : Article,
    fetch_article Sample.env_up Sample.article_url = Ok article /\
    a_title article = "T" /\
    0 < len (a_text article).
Proof.
  destruct (extract_record_fields Sample.env_up Sample.article_url _ eq_refl)
    as (article & Hf & Htext & Htitle & _ & _ & _ & Hlen & Hpos).
  exists article. split; [exact Hf|].
  split; [rewrite <- Htitle; reflexivity|].
  rewrite <- Htext, <- Hlen. exact Hpos.
Defined.

(** X6: [extract_website_content] returns [None] in exactly two
    situations: the fetch or parse raised, or the parsed text is empty. *)
Theorem extract_none_iff (env : Env) (url : string) :
  extract_website_content env url = None <->
  (exists e, fetch_article env url = Raise e) \/
  (exists article,
     fetch_article env url = Ok article /\ a_text article = EmptyString).
Proof.
  split.
  - intros Hnone.
    destruct (fetch_article env url) as [article|e] eqn:Hf.
    + right. exists article. split; [reflexivity|].
      destruct (a_text article) as [|ch rest] eqn:Htext; [reflexivity|].
      assert (Hne : a_text article <> EmptyString) by (rewrite Htext; discriminate).
      unfold extract_website_content in Hnone.
      rewrite (extract_try_ok env url article Hf Hne) in Hnone. discriminate.
    + left. exists e. reflexivity.
  - intros [[e He]|(article & Hf & Hempty)];
      apply extract_fails; unfold fetch_fails.
    + rewrite He. exact I.
    + rewrite Hf. exact Hempty.
Qed.

Lemma extract_none_iff_witness :
  extract_website_content Sample.env_up "https://example.com/empty" = None /\
  exists e, fetch_article Sample.env_up "https://example.org/" = Raise e.
Proof.
  split.
  - apply (extract_none_iff Sample.env_up "https://example.com/empty").
    right. eexists. split; reflexivity.
  - destruct (proj1 (extract_none_iff Sample.env_up "https://example.org/")
                eq_refl) as [He|(article & Hf & _)].
    + exact He.
    + discriminate Hf.
Defined.

(** ** More on single runs *)

Lemma step_empty_url (env : Env) (s : SessionState) :
  step s {| ev_env := env; ev_url := EmptyString;
            ev_trigger := StartAnalysis |} = s.
Proof. destruct s as [[c|] ms an]; reflexivity. Qed.

(** X7: with an empty URL box nothing is analysed: the run leaves the
    session state as it was, whatever a fetch of the empty address would
    have given. *)
Theorem empty_url_inert (env : Env) (s : SessionState) :
  step s {| ev_env := env; ev_url := EmptyString;
            ev_trigger := StartAnalysis |} = s /\
  extraction_succeeds {| ev_env := env; ev_url := EmptyString;
                         ev_trigger := StartAnalysis |} = false.
Proof. split; [apply step_empty_url|reflexivity]. Qed.

(** X8: a chat input that is empty, or that arrives while no content is
    stored, is dropped: no counter moves, no message is logged, the service
    is not asked. *)
Theorem question_dropped (env : Env) (url q : string) (s : SessionState) :
  website_content s = None \/ q = EmptyString ->
  step s {| ev_env := env; ev_url := url; ev_trigger := ChatInput q |} = s.
Proof.
  intros [Hnone| ->]; apply step_question_ignored; auto.
Qed.

Lemma question_dropped_witness :
  step init_state (Sample.ask Sample.env_up "What is this about?") =
    init_state /\
  step Sample.busy_state (Sample.ask Sample.env_up "") = Sample.busy_state.
Proof.
  split.
  - apply (question_dropped Sample.env_up Sample.article_url
             "What is this about?" init_state). left. reflexivity.
  - apply (question_dropped Sample.env_up Sample.article_url
             "" Sample.busy_state). right. reflexivity.
Defined.

Lemma extract_of_fetch (env : Env) (url : string) (article : Article) :
  fetch_article env url = Ok article ->
  a_text article <> EmptyString ->
  extract_website_content env url = Some {|
    c_text := a_text article;
    c_title := a_title article;
    c_publish_date := a_publish_date article;
    c_top_image := a_top_image article;
    c_length := len (a_text article);
    c_timestamp := now_extract env
  |}.
Proof.
  intros Hf Hne. unfold extract_website_content.
  rewrite (extract_try_ok env url article Hf Hne). reflexivity.
Qed.

(** X9: when the URL box is non-empty and the fetch gives an article with
    a non-empty text, the run stores the new record in place of whatever
    was stored, adds the URL to the set, stamps the activity with the time
    read after the extraction, and touches neither the message log nor the
    question counter. *)
Theorem successful_analysis_effect (env : Env) (url : string)
    (article : Article) (s : SessionState) :
  url <> EmptyString ->
  fetch_article env url = Ok article ->
  a_text article <> EmptyString ->
  let s' :=
    step s {| ev_env := env; ev_url := url; ev_trigger := StartAnalysis |} in
  website_content s' = extract_website_content env url /\
  (c_text <$> website_content s') = Some (a_text article) /\
  websites_analyzed (analytics s') = {[ url ]} ∪ websites_analyzed (analytics s) /\
  last_activity (analytics s') = Some (now_analysis env) /\
  messages s' = messages s /\
  total_questions (analytics s') = total_questions (analytics s).
Proof.
  intros Hurl Hf Hne s'. subst s'.
  pose proof (extract_of_fetch env url article Hf Hne) as Hx.
  rewrite (step_successful_analysis env url _ s
             (proj2 (truthy_nonempty url) Hurl) Hx), Hx.
  cbn. auto 10.
Qed.

Lemma successful_analysis_effect_witness :
  let s' := step Sample.busy_state
              (Sample.analyse Sample.env_blocked Sample.article_url) in
  (c_text <$> website_content s') = Some "hello world" /\
  last_activity (analytics s') = Some "2024-01-01 12:00:01" /\
  messages s' = messages Sample.busy_state /\
  total_questions (analytics s') = 2.
Proof.
  destruct (successful_analysis_effect Sample.env_blocked Sample.article_url
              Sample.article Sample.busy_state)
    as (_ & Htext & _ & Hlast & Hm & Hq); try discriminate; try reflexivity.
  intros s'; subst s'. unfold Sample.analyse.
  rewrite Htext, Hlast, Hm, Hq. auto.
Defined.

Lemma size_add_url (url : string) (X : gset string) :
  Z.of_nat (size ({[ url ]} ∪ X)) =
  Z.of_nat (size X) + (if decide (url ∈ X) then 0 else 1).
Proof.
  destruct (decide (url ∈ X)) as [Hin|Hnotin].
  - rewrite (subseteq_union_1_L {[ url ]} X)
      by (apply singleton_subseteq_l; exact Hin).
    lia.
  - rewrite size_union by (apply disjoint_singleton_l; exact Hnotin).
    rewrite size_singleton. lia.
Qed.

(** X10: the "Sites Analyzed" figure counts distinct addresses: a
    successful analysis raises it by one when the URL is new to the set and
    leaves it when the URL was analysed before. *)
Theorem sites_analyzed_counts_distinct (env : Env) (url : string)
    (c : Content) (s : SessionState) :
  url <> EmptyString ->
  extract_website_content env url = Some c ->
  sites_analyzed
    (step s {| ev_env := env; ev_url := url; ev_trigger := StartAnalysis |}) =
  sites_analyzed s +
  (if decide (url ∈ websites_analyzed (analytics s)) then 0 else 1).
Proof.
  intros Hurl Hx.
  rewrite (step_successful_analysis env url c s
             (proj2 (truthy_nonempty url) Hurl) Hx).
  unfold sites_analyzed. cbn. apply size_add_url.
Qed.

Lemma sites_analyzed_counts_distinct_witness :
  sites_analyzed
    (step init_state (Sample.analyse Sample.env_up Sample.article_url)) = 1 /\
  sites_analyzed
    (step Sample.busy_state
       (Sample.analyse Sample.env_up Sample.article_url)) =
  sites_analyzed Sample.busy_state.
Proof.
  assert (Hurl : Sample.article_url <> EmptyString) by discriminate.
  unfold Sample.analyse.
  split.
  - rewrite (sites_analyzed_counts_distinct Sample.env_up Sample.article_url
               _ init_state Hurl eq_refl).
    reflexivity.
  - rewrite (sites_analyzed_counts_distinct Sample.env_up Sample.article_url
               _ Sample.busy_state Hurl eq_refl).
    rewrite decide_True; [lia|]. vm_compute. set_solver.
Defined.

(** X11: a new analysis replaces the stored content while the chat log
    goes on: the next question is answered from the text extracted last,
    and its two messages are appended to the log as it was. *)
Theorem question_uses_latest_content (env1 env2 : Env) (url url' q : string)
    (c : Content) (s : SessionState) :
  url <> EmptyString ->
  extract_website_content env1 url = Some c ->
  q <> EmptyString ->
  let s1 :=
    step s {| ev_env := env1; ev_url := url; ev_trigger := StartAnalysis |} in
  let s2 :=
    step s1 {| ev_env := env2; ev_url := url'; ev_trigger := ChatInput q |} in
  messages s2 =
    messages s ++
    [ {| role := user; content := q |};
      {| role := assistant; content := generate_response env2 q (c_text c) |} ] /\
  website_content s2 = Some c /\
  total_questions (analytics s2) = total_questions (analytics s) + 1.
Proof.
  intros Hurl Hx Hq s1 s2. subst s1 s2.
  rewrite (step_successful_analysis env1 url c s
             (proj2 (truthy_nonempty url) Hurl) Hx).
  erewrite (step_question_state env2 url' q c);
    [|reflexivity|apply truthy_nonempty; exact Hq].
  cbn. rewrite <- app_assoc. auto.
Qed.

Lemma question_uses_latest_content_witness :
  let s2 := run_trace Sample.busy_state
              [Sample.analyse Sample.env_up Sample.article_url;
               Sample.ask Sample.env_up "And now?"] in
  length (messages s2) = 6%nat /\
  total_questions (analytics s2) = 3.
Proof.
  assert (Hurl : Sample.article_url <> EmptyString) by discriminate.
  assert (Hq : "And now?" <> EmptyString) by discriminate.
  destruct (question_uses_latest_content Sample.env_up Sample.env_up
              Sample.article_url Sample.article_url "And now?" _
              Sample.busy_state Hurl eq_refl Hq) as (Hm & _ & Ht).
  intros s2; subst s2. cbn [run_trace fold_left].
  unfold Sample.analyse, Sample.ask.
  rewrite Hm, Ht. split; reflexivity.
Defined.

(** X12: a run triggered by the chat box never changes the stored content
    nor the set of analysed URLs, and does not call the extractor: its
    outcome is the same under any fetch behaviour. *)
Theorem question_run_frame (env : Env) (url q : string) (s : SessionState)
    (fetch' : string -> Result Article) :
  let ev := {| ev_env := env; ev_url := url; ev_trigger := ChatInput q |} in
  let env' := {| fetch_article := fetch';
                 generate_content := generate_content env;
                 now_extract := now_extract env;
                 now_analysis := now_analysis env;
                 now_question := now_question env |} in
  website_content (step s ev) = website_content s /\
  websites_analyzed (analytics (step s ev)) =
    websites_analyzed (analytics s) /\
  step s {| ev_env := env'; ev_url := url; ev_trigger := ChatInput q |} =
    step s ev.
Proof.
  cbv zeta.
  destruct (website_content s) as [c|] eqn:Hc; [destruct (truthy q) eqn:Hq|].
  - rewrite !(step_question_state _ url q c s Hc Hq). cbn. auto.
  - rewrite !step_question_ignored by auto. auto.
  - rewrite !step_question_ignored by auto. auto.
Qed.

(** X13: no run of the page dies of an exception, in any session state and
    under any environment: the subscript [website_content['text']] is only
    evaluated under the test that content is stored, and every error of the
    two services is caught. *)
Theorem page_never_raises (ev : Event) (s : SessionState) :
  fst (run_event ev s) = Ok tt /\
  (forall env q, website_content s <> None ->
     fst (question_handler env q s) = Ok tt) /\
  (forall env q, website_content s = None ->
     exists e, fst (question_handler env q s) = Raise e).
Proof.
  split; [apply run_event_ok|]. split.
  - intros env q Hc. destruct s as [[c|] ms an]; [reflexivity|].
    exfalso. apply Hc. reflexivity.
  - intros env q Hc. destruct s as [[c|] ms an]; [discriminate|].
    eexists. reflexivity.
Qed.

Lemma page_never_raises_witness :
  fst (question_handler Sample.env_up "Who wrote it?" Sample.busy_state) =
    Ok tt /\
  exists e, fst (question_handler Sample.env_up "Who wrote it?" init_state) =
              Raise e.
Proof.
  split.
  - apply (page_never_raises (Sample.click ClearChatClick) Sample.busy_state).
    discriminate.
  - apply (page_never_raises (Sample.click ClearChatClick) init_state).
    reflexivity.
Defined.

(** ** What every run preserves: proofs *)

Lemma alternating_snoc (n : nat) :
  alternating n ++ [user; assistant] = alternating (S n).
Proof.
  induction n as [|n IH]; [reflexivity|].
  cbn [alternating app]. rewrite IH. reflexivity.
Qed.

Lemma alternating_nil (n : nat) : alternating n = [] -> n = 0%nat.
Proof. destruct n; [reflexivity|discriminate]. Qed.

Lemma truthy_false (s : string) : truthy s = false -> s = EmptyString.
Proof. destruct s; [reflexivity|discriminate]. Qed.

Lemma inv_init : SessionInv init_state.
Proof.
  constructor; cbn; try lia; try reflexivity; try discriminate; auto.
Qed.

Lemma inv_step (s : SessionState) (ev : Event) :
  SessionInv s -> SessionInv (step s ev).
Proof.
  intros Hinv. pose proof Hinv as [Hcount Hroles Hnone Hsome Hurls].
  destruct ev as [env url [|q| |]].
  - (* analysis *)
    destruct (truthy url) eqn:Hurl.
    + destruct (extract_website_content env url) as [c|] eqn:Hx.
      * rewrite (step_successful_analysis env url c s Hurl Hx).
        destruct (extract_Some_inv env url c Hx) as (article & _ & Hne & Hc).
        constructor; cbn; auto.
        -- discriminate.
        -- intros c' [= <-]. subst c. cbn.
           split; [exact Hne|]. split; [reflexivity|].
           split; [|discriminate].
           intros Hempty.
           assert (Hin : url ∈ ({[ url ]} ∪ websites_analyzed (analytics s)))
             by (apply elem_of_union_l, elem_of_singleton; reflexivity).
           rewrite Hempty in Hin. exact (not_elem_of_empty url Hin).
        -- intros u [->%elem_of_singleton|Hu]%elem_of_union;
             [apply truthy_nonempty; exact Hurl|auto].
      * rewrite (step_failed_analysis env url s Hx). exact Hinv.
    + apply truthy_false in Hurl. subst url. rewrite step_empty_url.
      exact Hinv.
  - (* chat input *)
    destruct (website_content s) as [c|] eqn:Hc;
      [destruct (truthy q) eqn:Hq|].
    + rewrite (step_question_state env url q c s Hc Hq).
      destruct (Hsome c eq_refl) as (Htext & Hlen & Hws & _).
      constructor; cbn; auto.
      * lia.
      * rewrite !map_app. cbn. rewrite <- app_assoc. cbn.
        rewrite Hroles, alternating_snoc. f_equal. lia.
      * discriminate.
      * intros c' [= <-]. repeat split; auto.
    + rewrite step_question_ignored by auto. exact Hinv.
    + rewrite step_question_ignored by auto. exact Hinv.
  - (* clear chat *)
    rewrite step_clear. run_script.
    constructor; cbn; auto; try lia.
    intros Hn. destruct (Hnone Hn) as (_ & _ & Hws). auto.
  - (* reset *)
    rewrite step_reset. run_script.
    constructor; cbn; auto; try lia; try discriminate.
Qed.

Lemma inv_run_trace (tr : list Event) :
  forall s : SessionState, SessionInv s -> SessionInv (run_trace s tr).
Proof.
  induction tr as [|ev tr IH]; intros s Hs; [exact Hs|].
  apply (IH (step s ev)). apply inv_step. exact Hs.
Qed.

Lemma inv_reachable (tr : list Event) :
  SessionInv (run_trace init_state tr).
Proof. apply inv_run_trace, inv_init. Qed.

(** X14: in every state a session can reach (analyses, questions, clears
    and resets in any order), the log holds exactly two messages per
    counted question, user then assistant in turn, and the counter is not
    negative. *)
Theorem log_matches_counter (tr : list Event) :
  let s := run_trace init_state tr in
  0 <= total_questions (analytics s) /\
  Z.of_nat (length (messages s)) = 2 * total_questions (analytics s) /\
  map role (messages s) =
    alternating (Z.to_nat (total_questions (analytics s))).
Proof.
  cbv zeta. destruct (inv_reachable tr) as [Hcount Hroles _ _ _].
  split; [exact Hcount|]. split; [|exact Hroles].
  rewrite <- (length_map role), Hroles, alternating_length. lia.
Qed.

(** X15: in every reachable state, nothing is stored exactly when the set
    of analysed URLs is empty, and then the log is empty and both figures
    of the dashboard are zero. *)
Theorem nothing_stored_iff_no_url (tr : list Event) :
  let s := run_trace init_state tr in
  (website_content s = None <-> websites_analyzed (analytics s) = ∅) /\
  (website_content s = None ->
   messages s = [] /\ questions_figure s = 0 /\ sites_analyzed s = 0).
Proof.
  cbv zeta. destruct (inv_reachable tr) as [_ _ Hnone Hsome _].
  split.
  - split.
    + intros Hn. apply Hnone. exact Hn.
    + intros Hws.
      destruct (website_content (run_trace init_state tr)) as [c|] eqn:Hc;
        [|reflexivity].
      destruct (Hsome c eq_refl) as (_ & _ & Hne & _). contradiction.
  - intros Hn. destruct (Hnone Hn) as (Hm & Hq & Hws).
    unfold questions_figure, sites_analyzed. rewrite Hws, size_empty. auto.
Qed.

Lemma nothing_stored_iff_no_url_witness :
  let s := run_trace Sample.busy_state [Sample.click ResetAnalysisClick] in
  messages s = [] /\ questions_figure s = 0 /\ sites_analyzed s = 0.
Proof.
  apply (nothing_stored_iff_no_url
           [Sample.analyse Sample.env_up Sample.article_url;
            Sample.ask Sample.env_up "What is this about?";
            Sample.ask Sample.env_down "Who wrote it?";
            Sample.click ResetAnalysisClick]).
  reflexivity.
Defined.

(** X16: whatever a session has stored is a well-formed record: its text
    is non-empty and its length field is the character count of that text,
    so the "Current Analysis" panel is drawn and shows the true size. *)
Theorem stored_content_well_formed (tr : list Event) (c : Content) :
  let s := run_trace init_state tr in
  website_content s = Some c ->
  c_text c <> EmptyString /\
  c_length c = Z.of_nat (String.length (c_text c)) /\
  current_analysis s =
    Some (c_title c, Z.of_nat (String.length (c_text c)), c_timestamp c).
Proof.
  cbv zeta. intros Hc.
  destruct (inv_reachable tr) as [_ _ _ Hsome _].
  destruct (Hsome c Hc) as (Hne & Hlen & _).
  split; [exact Hne|]. split; [exact Hlen|].
  unfold current_analysis. rewrite Hc. cbn. rewrite Hlen. reflexivity.
Qed.

Lemma stored_content_well_formed_witness :
  exists c : Content,
    website_content Sample.busy_state = Some c /\
    c_length c = 11 /\
    current_analysis Sample.busy_state = Some ("T", 11, "2024-01-01 10:00:00").
Proof.
  eexists. split; [reflexivity|].
  destruct (stored_content_well_formed
              [Sample.analyse Sample.env_up Sample.article_url;
               Sample.ask Sample.env_up "What is this about?";
               Sample.ask Sample.env_down "Who wrote it?"] _ eq_refl)
    as (_ & Hlen & Hpanel).
  split; [exact Hlen|exact Hpanel].
Defined.

(** X17: in every reachable state the set of analysed URLs holds no empty
    address, and the activity stamp is set as soon as something is stored
    or a question has been counted. *)
Theorem urls_nonempty_activity_set (tr : list Event) :
  let s := run_trace init_state tr in
  (forall u : string,
     u ∈ websites_analyzed (analytics s) -> u <> EmptyString) /\
  (website_content s <> None \/ 0 < total_questions (analytics s) ->
   last_activity (analytics s) <> None).
Proof.
  cbv zeta. destruct (inv_reachable tr) as [_ _ Hnone Hsome Hurls].
  split; [exact Hurls|].
  intros Hact.
  destruct (website_content (run_trace init_state tr)) as [c|] eqn:Hc.
  - destruct (Hsome c eq_refl) as (_ & _ & _ & Hla). exact Hla.
  - destruct Hact as [Hne|Hpos]; [congruence|].
    destruct (Hnone eq_refl) as (_ & Hzero & _). lia.
Qed.

Lemma urls_nonempty_activity_set_witness :
  last_activity (analytics Sample.busy_state) <> None /\
  EmptyString ∉ websites_analyzed (analytics Sample.busy_state).
Proof.
  pose proof (urls_nonempty_activity_set
                [Sample.analyse Sample.env_up Sample.article_url;
                 Sample.ask Sample.env_up "What is this about?";
                 Sample.ask Sample.env_down "Who wrote it?"]) as [Hurls Hla].
  split.
  - apply Hla. left. discriminate.
  - intros Hin. exact (Hurls EmptyString Hin eq_refl).
Defined.

(** X18: a trigger whose widget is not on the page changes nothing: in
    every reachable state, a start click with an empty URL box, a chat
    input without stored content, a clear click with an empty log and a
    reset click without stored content all leave the state as it is.  So
    the conditions under which the page draws its widgets lose no
    behaviour. *)
Theorem unoffered_trigger_inert (tr : list Event) (ev : Event) :
  let s := run_trace init_state tr in
  offered s ev = false -> step s ev = s.
Proof.
  cbv zeta. intros Hoff.
  destruct (inv_reachable tr) as [Hcount Hroles Hnone _ _].
  destruct ev as [env url [|q| |]];
    unfold offered in Hoff; cbn [ev_trigger ev_url] in Hoff.
  - apply truthy_false in Hoff. subst url. apply step_empty_url.
  - apply step_question_ignored. left.
    destruct (website_content (run_trace init_state tr));
      [discriminate|reflexivity].
  - rewrite step_clear.
    destruct (run_trace init_state tr) as [wc ms [tq ws la]].
    cbn in *. destruct ms as [|m ms]; [|discriminate].
    cbn in Hroles. symmetry in Hroles. apply alternating_nil in Hroles.
    assert (tq = 0) as -> by lia. reflexivity.
  - rewrite step_reset.
    destruct (run_trace init_state tr) as [wc ms [tq ws la]].
    cbn in *. destruct wc as [c|]; [discriminate|].
    destruct (Hnone eq_refl) as (-> & -> & ->). reflexivity.
Qed.

Lemma unoffered_trigger_inert_witness :
  step init_state (Sample.click ClearChatClick) = init_state /\
  step init_state (Sample.click ResetAnalysisClick) = init_state.
Proof.
  split.
  - apply (unoffered_trigger_inert [] (Sample.click ClearChatClick)).
    reflexivity.
  - apply (unoffered_trigger_inert [] (Sample.click ResetAnalysisClick)).
    reflexivity.
Defined.

(** X19: in every reachable state the page draws the whole log, one bubble
    per message in order, user bubbles and assistant bubbles in turn; the
    clear button is on the page exactly when the counter is positive, and
    then the reset button is there too. *)
Theorem chat_history_complete (tr : list Event) :
  let s := run_trace init_state tr in
  chat_history s =
    map (fun m => (message_class m, content m)) (messages s) /\
  map fst (chat_history s) =
    concat (replicate (Z.to_nat (total_questions (analytics s)))
              ["user-message"; "assistant-message"]) /\
  (truthy_list (messages s) = true <-> 0 < total_questions (analytics s)) /\
  (truthy_list (messages s) = true ->
   truthy_content (website_content s) = true).
Proof.
  cbv zeta. destruct (inv_reachable tr) as [Hcount Hroles Hnone _ _].
  assert (Hall : chat_history (run_trace init_state tr) =
                 map (fun m => (message_class m, content m))
                     (messages (run_trace init_state tr))).
  { unfold chat_history.
    destruct (website_content (run_trace init_state tr)); [reflexivity|].
    destruct (Hnone eq_refl) as (-> & _). reflexivity. }
  split; [exact Hall|]. split; [|split].
  - rewrite Hall, map_map. cbn [fst].
    assert (Hcls : forall l : list Message,
              map (fun m => message_class m) l =
              map (fun r : Role => if decide (r = user) then "user-message"
                                   else "assistant-message") (map role l)).
    { intros l. rewrite map_map. reflexivity. }
    rewrite Hcls, Hroles.
    generalize (Z.to_nat (total_questions (analytics (run_trace init_state tr)))).
    intros n. induction n as [|n IH]; [reflexivity|].
    cbn [alternating map replicate concat app]. rewrite IH. reflexivity.
  - destruct (messages (run_trace init_state tr)) as [|m ms] eqn:Hm.
    + cbn in Hroles. symmetry in Hroles. apply alternating_nil in Hroles.
      cbn. split; [discriminate|lia].
    + cbn. split; [|reflexivity]. intros _.
      destruct (Z.to_nat (total_questions (analytics (run_trace init_state tr))))
        eqn:Hn; [discriminate|lia].
  - destruct (website_content (run_trace init_state tr)); [reflexivity|].
    destruct (Hnone eq_refl) as (-> & _). discriminate.
Qed.

Lemma chat_history_complete_witness :
  map fst (chat_history Sample.busy_state) =
    ["user-message"; "assistant-message";
     "user-message"; "assistant-message"] /\
  truthy_content (website_content Sample.busy_state) = true.
Proof.
  destruct (chat_history_complete
              [Sample.analyse Sample.env_up Sample.article_url;
               Sample.ask Sample.env_up "What is this about?";
               Sample.ask Sample.env_down "Who wrote it?"])
    as (_ & Hcls & _ & Hreset).
  split; [exact Hcls|]. apply Hreset. reflexivity.
Defined.

(** ** Growth between callbacks *)

Lemma step_grows (s : SessionState) (ev : Event) :
  ~ is_callback ev ->
  total_questions (analytics s) <= total_questions (analytics (step s ev)) /\
  messages s `prefix_of` messages (step s ev) /\
  websites_analyzed (analytics s) ⊆ websites_analyzed (analytics (step s ev)) /\
  (website_content s <> None -> website_content (step s ev) <> None).
Proof.
  assert (Hsame : total_questions (analytics s) <=
                    total_questions (analytics s) /\
                  messages s `prefix_of` messages s /\
                  websites_analyzed (analytics s) ⊆
                    websites_analyzed (analytics s) /\
                  (website_content s <> None -> website_content s <> None)).
  { split; [lia|]. split; [reflexivity|]. split; [reflexivity|auto]. }
  unfold is_callback, is_reset, is_clear.
  destruct ev as [env url [|q| |]]; cbn [ev_trigger]; intros Hcb;
    try (exfalso; apply Hcb; auto; fail).
  - destruct (truthy url) eqn:Hurl;
      [destruct (extract_website_content env url) as [c|] eqn:Hx|].
    + rewrite (step_successful_analysis env url c s Hurl Hx). cbn.
      split; [lia|]. split; [reflexivity|].
      split; [apply union_subseteq_r|discriminate].
    + rewrite (step_failed_analysis env url s Hx). exact Hsame.
    + apply truthy_false in Hurl. subst url. rewrite step_empty_url.
      exact Hsame.
  - destruct (website_content s) as [c|] eqn:Hc;
      [destruct (truthy q) eqn:Hq|].
    + rewrite (step_question_state env url q c s Hc Hq). cbn.
      split; [lia|]. split; [|split; [reflexivity|discriminate]].
      rewrite <- app_assoc. apply prefix_app_r. reflexivity.
    + rewrite step_question_ignored by auto. rewrite Hc. exact Hsame.
    + rewrite step_question_ignored by auto. rewrite Hc. exact Hsame.
Qed.

(** X20: between callbacks nothing is lost: along any runs that are
    neither a clear nor a reset, from any state, the counter does not
    decrease, the log only grows at its end, the set of URLs only grows,
    and stored content stays stored (possibly replaced). *)
Theorem growth_without_callback (tr : list Event) (s : SessionState) :
  Forall (fun ev => ~ is_callback ev) tr ->
  total_questions (analytics s) <=
    total_questions (analytics (run_trace s tr)) /\
  messages s `prefix_of` messages (run_trace s tr) /\
  websites_analyzed (analytics s) ⊆
    websites_analyzed (analytics (run_trace s tr)) /\
  (website_content s <> None -> website_content (run_trace s tr) <> None).
Proof.
  revert s. induction tr as [|ev tr IH]; intros s Hall.
  - cbn. split; [lia|auto].
  - apply Forall_cons in Hall as [Hev Hall].
    destruct (step_grows s ev Hev) as (Hq & Hm & Hw & Hc).
    destruct (IH (step s ev) Hall) as (Hq' & Hm' & Hw' & Hc').
    change (run_trace s (ev :: tr)) with (run_trace (step s ev) tr).
    split; [lia|]. split; [etrans; eassumption|].
    split; [etrans; eassumption|auto].
Qed.

Lemma growth_without_callback_witness :
  messages (run_trace init_state
              [Sample.analyse Sample.env_up Sample.article_url;
               Sample.ask Sample.env_up "What is this about?"])
  `prefix_of` messages Sample.busy_state /\
  1 <= total_questions (analytics Sample.busy_state).
Proof.
  destruct (growth_without_callback
              [Sample.ask Sample.env_down "Who wrote it?"]
              (run_trace init_state
                 [Sample.analyse Sample.env_up Sample.article_url;
                  Sample.ask Sample.env_up "What is this about?"]))
    as (Hq & Hm & _ & _).
  - repeat constructor. intros [H|H]; discriminate H.
  - split; [exact Hm|exact Hq].
Defined.

Lemma step_last_activity (s : SessionState) (ev : Event) :
  last_activity (analytics s) <> None ->
  last_activity (analytics (step s ev)) <> None.
Proof.
  intros Hla.
  destruct ev as [env url [|q| |]].
  - destruct (truthy url) eqn:Hurl;
      [destruct (extract_website_content env url) as [c|] eqn:Hx|].
    + rewrite (step_successful_analysis env url c s Hurl Hx). discriminate.
    + rewrite (step_failed_analysis env url s Hx). exact Hla.
    + apply truthy_false in Hurl. subst url. rewrite step_empty_url.
      exact Hla.
  - destruct (website_content s) as [c|] eqn:Hc;
      [destruct (truthy q) eqn:Hq|].
    + rewrite (step_question_state env url q c s Hc Hq). discriminate.
    + rewrite step_question_ignored by auto. exact Hla.
    + rewrite step_question_ignored by auto. exact Hla.
  - rewrite step_clear. run_script. exact Hla.
  - rewrite step_reset. run_script. exact Hla.
Qed.

(** X21: the activity stamp is never cleared: once set it stays set along
    any runs, resets and clears included, so after a reset the session
    still shows when it was last used. *)
Theorem last_activity_never_cleared (tr : list Event) (s : SessionState) :
  last_activity (analytics s) <> None ->
  last_activity (analytics (run_trace s tr)) <> None.
Proof.
  revert s. induction tr as [|ev tr IH]; intros s Hla; [exact Hla|].
  apply (IH (step s ev)). apply step_last_activity. exact Hla.
Qed.

Lemma last_activity_never_cleared_witness :
  last_activity
    (analytics (run_trace Sample.busy_state
                  [Sample.click ClearChatClick;
                   Sample.click ResetAnalysisClick])) <> None /\
  website_content
    (run_trace Sample.busy_state
       [Sample.click ClearChatClick; Sample.click ResetAnalysisClick]) = None.
Proof.
  split; [|reflexivity].
  apply (last_activity_never_cleared
           [Sample.click ClearChatClick; Sample.click ResetAnalysisClick]
           Sample.busy_state).
  discriminate.
Defined.

(** ** The callbacks together *)

(** X22: both callbacks are idempotent, and a reset absorbs a clear on
    either side: clear then reset, and reset then clear, leave the state a
    reset alone leaves. *)
Theorem callbacks_compose (s : SessionState) :
  snd (clear_chat (snd (clear_chat s))) = snd (clear_chat s) /\
  snd (reset_analysis (snd (reset_analysis s))) = snd (reset_analysis s) /\
  snd (reset_analysis (snd (clear_chat s))) = snd (reset_analysis s) /\
  snd (clear_chat (snd (reset_analysis s))) = snd (reset_analysis s).
Proof. run_script. auto. Qed.

(** ** Setting the session up: proofs *)

(** X23: after the initialisation block the three keys are present; a key
    that was present keeps its value, so a rerun of the script does not
    disturb an established session, and a key that was absent gets its
    default, so the first run yields the initial state. *)
Theorem initialize_keeps_session (r : RawSession) :
  (exists s, session_of (initialize r) = Some s) /\
  (forall v, raw_website_content r = Some v ->
     raw_website_content (initialize r) = Some v) /\
  (forall v, raw_messages r = Some v ->
     raw_messages (initialize r) = Some v) /\
  (forall v, raw_analytics r = Some v ->
     raw_analytics (initialize r) = Some v) /\
  (forall s, session_of r = Some s -> initialize r = r) /\
  (raw_website_content r = None -> raw_messages r = None ->
   raw_analytics r = None ->
   session_of (initialize r) = Some init_state) /\
  initialize (initialize r) = initialize r.
Proof.
  destruct r as [[wc|] [ms|] [an|]];
    (split; [eexists; reflexivity|]);
    repeat split; cbn; try congruence; try discriminate; try reflexivity.
Qed.

Lemma initialize_keeps_session_witness :
  initialize (raw_of Sample.busy_state) = raw_of Sample.busy_state /\
  session_of (initialize {| raw_website_content := None;
                            raw_messages := None;
                            raw_analytics := None |}) = Some init_state.
Proof.
  split.
  - apply (initialize_keeps_session (raw_of Sample.busy_state))
      with (s := Sample.busy_state).
    reflexivity.
  - apply (initialize_keeps_session {| raw_website_content := None;
                                       raw_messages := None;
                                       raw_analytics := None |});
      reflexivity.
Defined.
